(** * Document-refresh assistant: text extraction, family analysis,
      intent extraction and field merging

    A shallow embedding of the Python sources

    - [src/azure_function/document_analyzer.py] (text extraction),
    - [src/family_analyzer.py] (cross-document comparative analysis),
    - [src/azure_function/intent_extractor.py] (intent extraction, field merge),
    - [src/document_generator.py] (synthesis-based generation),

    followed by the properties of the specification that concern them.

    Conventions.  A Python [str] is a list of code points, [bytes] a list of
    [Byte.byte]; a [dict] is a [gmap] keyed by [str]; a JSON value is a
    [pyval].  Code that logs, calls the completion service or raises is
    written in the monad [M], which records the events in program order
    next to the outcome (an exception or a value). *)

From stdpp Require Import gmap strings list sorting pretty.
From Stdlib.Strings Require Import Byte.
From Stdlib Require QArith_base.

(** ** Python strings *)

Abbreviation char := N (only parsing).
Abbreviation pystr := (list N) (only parsing).
Abbreviation bytes := (list Byte.byte) (only parsing).

(** A Python [float] is kept as the rational it denotes, numerator over
    denominator. *)
Abbreviation Q := QArith_base.Q (only parsing).
Notation "n # d" := (QArith_base.Qmake n%Z d%positive) (at level 55, no associativity, only parsing).

(** A literal: the code points of an ASCII Rocq string. *)
Definition py (x : string) : pystr :=
  Ascii.N_of_ascii <$> String.list_ascii_of_string x.

(** The line feed of the source's string literals. *)
Definition nl : pystr := [10%N].

(** [str.isspace] on one code point (the white-space table of CPython). *)
Definition isspace (c : char) : bool :=
  ((9 <=? c) && (c <=? 13) || (28 <=? c) && (c <=? 32)
   || (c =? 133) || (c =? 160) || (c =? 5760)
   || (8192 <=? c) && (c <=? 8202)
   || (c =? 8232) || (c =? 8233) || (c =? 8239) || (c =? 8287)
   || (c =? 12288))%N.

Fixpoint lstrip (s : pystr) : pystr :=
  match s with
  | [] => []
  | c :: s' => if isspace c then lstrip s' else s
  end.

Definition rstrip (s : pystr) : pystr := reverse (lstrip (reverse s)).

(** [s.strip()] *)
Definition strip (s : pystr) : pystr := rstrip (lstrip s).

(** Truth value of a [str]: non-empty. *)
Definition truthy (s : pystr) : bool :=
  match s with [] => false | _ :: _ => true end.

(** [s.endswith(suffix)] *)
Definition endswith (s suffix : pystr) : bool :=
  bool_decide (suffix `suffix_of` s).

(** [sep.join(parts)] *)
Fixpoint join (sep : pystr) (parts : list pystr) : pystr :=
  match parts with
  | [] => []
  | [p] => p
  | p :: rest => p ++ sep ++ join sep rest
  end.

(** [a < b] on [str]: lexicographic on code points. *)
Fixpoint str_ltb (a b : pystr) : bool :=
  match a, b with
  | _, [] => false
  | [], _ :: _ => true
  | x :: a', y :: b' => (x <? y)%N || (x =? y)%N && str_ltb a' b'
  end.

(** [str(n)] for a natural number. *)
Definition str_of_nat (n : nat) : pystr := py (pretty n).

(** [bytes.decode('latin-1')]: every byte is the code point of its value;
    this codec accepts every byte sequence. *)
Definition decode_latin1 (b : bytes) : pystr := Byte.to_N <$> b.

(** ** Python values (what [json.loads] produces, and the results built
    from them) *)

#[warnings="-register-all"]
Inductive pyval : Type :=
  | PNone
  | PBool (b : bool)
  | PInt (z : Z)
  | PFloat (q : Q)
  | PStr (s : pystr)
  | PList (l : list pyval)
  | PDict (d : gmap pystr pyval).

(** [s == v] for a [str] [s] and any value [v]. *)
Definition py_eq_str (s : pystr) (v : pyval) : bool :=
  match v with
  | PStr r => bool_decide (s = r)
  | _ => false
  end.

(** [d.get(k, default)] *)
Definition dict_get {V} (d : gmap pystr V) (k : pystr) (default : V) : V :=
  match d !! k with Some v => v | None => default end.

(** ** Exceptions, events and the monad of effects *)

Inductive exn : Type :=
  | ValueError (msg : string)
  | TypeError (msg : string)
  | AttributeError (msg : string)
  | LibraryError (cls : string) (msg : string).

(** The client object of the completion service and one request to it. *)
Record client := AzureOpenAI {
  client_endpoint : pystr;
  client_api_key : pystr;
  client_api_version : pystr
}.

Record request := {
  model : pystr;
  system_content : pystr;
  user_content : pystr;
  temperature : Q;
  max_tokens : Z
}.

Inductive level := Info | Warning | Error.

(** One constructor per logging call of the sources. *)
Inductive log_msg : Type :=
  | DocxExtractError (e : exn)
  | TxtExtractError (e : exn)
  | EmptyTextExtracted (filename : pystr)
  | CouldNotExtractText (filename : pystr) (e : exn)
  | SingleDocumentStub
  | CouldNotExtractContextDoc (filename : pystr) (e : exn)
  | IncludingContextDocs (n : nat)
  | FamilyAnalysisComplete (display : pyval) (docs ctx : nat) (conf : pyval)
  | FamilyAnalysisError (e : exn)
  | SearchTermsCapped (terms : pyval)
  | ContextSearchTermsCapped (terms : pyval)
  | SearchIntentError (e : exn)
  | IntentError (e : exn)
  | SynthesisComplete (changes flags : nat)
  | SynthesisError (e : exn).

Inductive event : Type :=
  | Extraction (filename : pystr)
      (* base64-decoding and text extraction of one document starts *)
  | Completion (c : client) (r : request)
      (* client.chat.completions.create: the network call *)
  | Log (lvl : level) (msg : log_msg).

Definition M (A : Type) : Type := (list event * (exn + A))%type.

Definition ret {A} (x : A) : M A := ([], inr x).
Definition raise {A} (e : exn) : M A := ([], inl e).
Definition lift {A} (r : exn + A) : M A := ([], r).
Definition emit (ev : event) : M unit := ([ev], inr ()).

Definition bind {A B} (m : M A) (k : A -> M B) : M B :=
  match m with
  | (t, inl e) => (t, inl e)
  | (t, inr x) => let '(t', r) := k x in (t ++ t', r)
  end.

(** [try: body except Exception as e: handler e] *)
Definition try_except {A} (body : M A) (handler : exn -> M A) : M A :=
  match body with
  | (t, inl e) => let '(t', r) := handler e in (t ++ t', r)
  | (t, inr x) => (t, inr x)
  end.

Declare Scope py_scope.
Delimit Scope py_scope with py.
Notation "x <- m ;; k" := (bind m (fun x => k))
  (at level 100, m at next level, right associativity) : py_scope.
Notation "m ;; k" := (bind m (fun _ => k))
  (at level 100, right associativity) : py_scope.
Open Scope py_scope.

Definition trace {A} (m : M A) : list event := m.1.
Definition outcome {A} (m : M A) : exn + A := m.2.

Definition is_completion (ev : event) : bool :=
  match ev with Completion _ _ => true | _ => false end.
Definition is_extraction (ev : event) : bool :=
  match ev with Extraction _ => true | _ => false end.

(** A trace without a call to the completion service. *)
Definition no_completion (t : list event) : Prop :=
  Forall (fun ev => is_completion ev = false) t.

(** ** The libraries and services the sources call

    python-docx, the codecs, base64, json and the hosted completion
    service are not part of the repository; neither is the text of the
    prompt constants relevant to any property below.  They are the fields
    of one interface. *)

(** What the sources read of a parsed word-processing document:
    the text of each paragraph, and for each table its rows of cell
    texts. *)
Record docx := {
  paragraphs : list pystr;
  tables : list (list (list pystr))
}.

Class Externals := {
  lower : pystr -> pystr;                           (* str.lower *)
  decode_utf8 : bytes -> option pystr;
      (* bytes.decode('utf-8'); None is UnicodeDecodeError *)
  b64decode : pystr -> exn + bytes;                 (* base64.b64decode *)
  Document : bytes -> exn + docx;                   (* docx.Document *)
  chat_completions_create : client -> request -> exn + pystr;
      (* the content of the first choice of the response *)
  json_loads : pystr -> exn + pyval;
  json_dumps : pyval -> pystr;                      (* json.dumps(_, indent=2) *)
  FAMILY_ANALYSIS_PROMPT : pystr;
  SEARCH_INTENT_PROMPT : pystr;
  INTENT_EXTRACTION_PROMPT : pystr;
  SYNTHESIS_GENERATION_PROMPT : pystr -> pystr
      (* SYNTHESIS_GENERATION_PROMPT.format(target_info=_) *)
}.

(** ** document_analyzer.py *)

Section document_analyzer.
Context `{!Externals}.

(** [extract_text_from_docx], lines 18-50. *)
Definition table_row_text (cells : list pystr) : option pystr :=
  let row_text := strip <$> filter (fun c => truthy (strip c) = true) cells in
  match row_text with
  | [] => None
  | _ => Some (join (py " | ") row_text)
  end.

Definition extract_text_from_docx (file_bytes : bytes) : M pystr :=
  try_except
    (doc <- lift (Document file_bytes) ;;
     let paragraphs :=
       filter (fun t => truthy (strip t) = true) (paragraphs doc) in
     let paragraphs :=
       paragraphs ++ omap table_row_text (concat (tables doc)) in
     ret (join nl paragraphs))
    (fun e => emit (Log Error (DocxExtractError e)) ;; ret []).

(** [extract_text_from_txt], lines 53-62.  The inner [try] is the
    [match]; neither codec call can raise anything but the
    [UnicodeDecodeError] of the first, so the outer handler never
    runs. *)
Definition extract_text_from_txt (file_bytes : bytes) : M pystr :=
  try_except
    (ret (match decode_utf8 file_bytes with
          | Some text => text
          | None => decode_latin1 file_bytes
          end))
    (fun e => emit (Log Error (TxtExtractError e)) ;; ret []).

Definition legacy_doc_error : exn :=
  ValueError "Legacy .doc format not supported. Please convert to .docx".

(** [extract_text], lines 65-86. *)
Definition extract_text (file_bytes : bytes) (filename : pystr) : M pystr :=
  let filename_lower := lower filename in
  if endswith filename_lower (py ".docx") then
    extract_text_from_docx file_bytes
  else if endswith filename_lower (py ".txt") then
    extract_text_from_txt file_bytes
  else if endswith filename_lower (py ".doc") then
    raise legacy_doc_error
  else
    extract_text_from_txt file_bytes.

End document_analyzer.

(** ** Configuration shared by the operations that call the completion
    service *)

(** The optional keyword arguments [azure_endpoint], [azure_api_key],
    [azure_deployment] and [api_version]. *)
Record azure_args := {
  azure_endpoint : option pystr;
  azure_api_key : option pystr;
  azure_deployment : option pystr;
  api_version : option pystr
}.

(** [a or b] where [a] is an optional [str]: [a] when it is neither
    [None] nor empty. *)
Definition py_or {B} (a : option pystr) (pick : pystr -> B) (b : B) : B :=
  match a with
  | Some (c :: s) => pick (c :: s)
  | _ => b
  end.

(** [not a] for an optional [str]. *)
Definition falsy (a : option pystr) : bool :=
  match a with
  | Some (_ :: _) => false
  | _ => true
  end.

Definition not_configured : exn :=
  ValueError "Azure OpenAI credentials not configured. Set AZURE_OPENAI_ENDPOINT and AZURE_OPENAI_KEY environment variables.".

Section config.
Variable args : azure_args.
Variable environ : gmap pystr pystr.          (* os.environ *)

Definition endpoint_of : option pystr :=
  py_or (azure_endpoint args) Some (environ !! py "AZURE_OPENAI_ENDPOINT").
Definition api_key_of : option pystr :=
  py_or (azure_api_key args) Some (environ !! py "AZURE_OPENAI_KEY").
Definition version_of : pystr :=
  py_or (api_version args) id
    (dict_get environ (py "AZURE_OPENAI_API_VERSION") (py "2025-01-01-preview")).
(** The deployment of the intent extractors. *)
Definition deployment_of : pystr :=
  py_or (azure_deployment args) id
    (dict_get environ (py "AZURE_OPENAI_DEPLOYMENT") (py "gpt-4o-mini")).
(** The deployment of analysis and generation, which prefer the large
    model. *)
Definition large_deployment_of : pystr :=
  py_or (azure_deployment args) id
    (dict_get environ (py "AZURE_OPENAI_DEPLOYMENT_LARGE")
       (dict_get environ (py "AZURE_OPENAI_DEPLOYMENT") (py "gpt-4o-mini"))).

(** The client built once the guard [if not endpoint or not api_key]
    has passed. *)
Definition make_client : client :=
  AzureOpenAI (default [] endpoint_of) (default [] api_key_of) version_of.
End config.

(** ** [list.sort(key=...)]: the stable sort, ascending with [<] on the
    keys *)

Fixpoint insert_sorted {A} (key : A -> pystr) (x : A) (l : list A) : list A :=
  match l with
  | [] => [x]
  | y :: l' =>
      if str_ltb (key y) (key x) then y :: insert_sorted key x l'
      else x :: y :: l'
  end.

Definition list_sort {A} (key : A -> pystr) (l : list A) : list A :=
  foldr (insert_sorted key) [] l.

(** The order the sort establishes: [a] may precede [b]. *)
Definition key_le {A} (key : A -> pystr) (a b : A) : Prop :=
  str_ltb (key b) (key a) = false.

(** A [for] loop whose body either appends one item or logs and goes on. *)
Fixpoint collect {A B} (body : A -> M (option B)) (l : list A) : M (list B) :=
  match l with
  | [] => ret []
  | x :: rest =>
      item <- body x ;;
      items <- collect body rest ;;
      ret (match item with Some y => y :: items | None => items end)
  end.

(** ** family_analyzer.py *)

(** An input document: [filename], base64 [content], optional [metadata]
    with the [created] and [modified] strings. *)
Record document := {
  filename : pystr;
  content : pystr;
  metadata : option (gmap pystr pystr)
}.

(** An entry of [doc_texts] and of [context_texts]. *)
Record doc_text := {
  dt_filename : pystr;
  dt_text : pystr;
  dt_metadata : gmap pystr pystr
}.

Definition no_extractable_text : exn :=
  ValueError "Could not extract text from any of the provided documents.".

Section family_analyzer.
Context `{!Externals}.

(** The body of the loop of lines 168-183. *)
Definition extract_primary_doc (doc : document) : M (option doc_text) :=
  try_except
    (emit (Extraction (filename doc)) ;;
     content_bytes <- lift (b64decode (content doc)) ;;
     text <- extract_text content_bytes (filename doc) ;;
     if truthy (strip text) then
       ret (Some {| dt_filename := filename doc;
                    dt_text := take 6000 text;
                    dt_metadata := default ∅ (metadata doc) |})
     else
       (emit (Log Warning (EmptyTextExtracted (filename doc))) ;;
        ret None))
    (fun e =>
       emit (Log Warning (CouldNotExtractText (filename doc) e)) ;;
       ret None).

(** The body of the loop of lines 224-235. *)
Definition extract_context_doc (doc : document) : M (option doc_text) :=
  try_except
    (emit (Extraction (filename doc)) ;;
     content_bytes <- lift (b64decode (content doc)) ;;
     text <- extract_text content_bytes (filename doc) ;;
     if truthy (strip text) then
       ret (Some {| dt_filename := filename doc;
                    dt_text := take 4000 text;
                    dt_metadata := default ∅ (metadata doc) |})
     else
       ret None)
    (fun e =>
       emit (Log Warning (CouldNotExtractContextDoc (filename doc) e)) ;;
       ret None).

(** The stub of lines 190-206. *)
Definition not_applicable : pyval :=
  PDict (list_to_map
           [(py "description", PStr (py "N/A for single document"));
            (py "items", PList [])]).

Definition single_document_stub (dt : doc_text) : gmap pystr pyval :=
  list_to_map
    [(py "family_type", PStr (py "unknown"));
     (py "family_type_display", PStr (py "Single Document"));
     (py "document_count", PInt 1);
     (py "date_range",
        PStr (dict_get (dt_metadata dt) (py "created") (py "unknown")));
     (py "analysis",
        PDict (list_to_map
                 [(py "stable_elements", not_applicable);
                  (py "variable_elements", not_applicable);
                  (py "emerging_elements", not_applicable)]));
     (py "recommended_base", PStr (dt_filename dt));
     (py "base_document_text", PStr (dt_text dt));
     (py "organizational_context", PStr []);
     (py "confidence", PFloat (1 # 2));
     (py "summary",
        PStr (py "Only one document found: " ++ dt_filename dt
              ++ py ". Use single-document analysis instead."));
     (py "single_document_fallback", PBool true)].

(** The sort key of line 209. *)
Definition created_key (dt : doc_text) : pystr :=
  dict_get (dt_metadata dt) (py "created") [].

(** Lines 212-216: one delimited section per document, numbered from 1. *)
Definition document_section (i : nat) (dt : doc_text) : pystr :=
  let created := dict_get (dt_metadata dt) (py "created") (py "unknown date") in
  nl ++ nl ++ py "=== DOCUMENT " ++ str_of_nat i ++ py ": " ++ dt_filename dt
     ++ py " (created: " ++ created ++ py ") ===" ++ nl
     ++ dt_text dt.

(** Lines 239-241. *)
Definition context_section (i : nat) (ct : doc_text) : pystr :=
  nl ++ nl ++ py "--- Context Doc " ++ str_of_nat i ++ py ": " ++ dt_filename ct
     ++ py " ---" ++ nl
     ++ dt_text ct.

Definition enumerate_from_1 (f : nat -> doc_text -> pystr)
    (l : list doc_text) : pystr :=
  concat (imap (fun i x => f (S i) x) l).

(** Lines 212-219 and 237-241: the text sent for comparison. *)
Definition comparison_text (doc_texts : list doc_text) (user_context : pystr)
    (context_texts : list doc_text) : pystr :=
  let text := enumerate_from_1 document_section doc_texts in
  let text :=
    if truthy user_context
    then text ++ nl ++ nl ++ py "User context: " ++ user_context
    else text in
  match context_texts with
  | [] => text
  | _ :: _ =>
      text ++ nl ++ nl ++ py "=== ORGANIZATIONAL CONTEXT DOCUMENTS ==="
           ++ enumerate_from_1 context_section context_texts
  end.

(** Lines 252-261. *)
Definition analysis_request (deployment : pystr) (doc_texts : list doc_text)
    (comparison : pystr) : request :=
  {| model := deployment;
     system_content := FAMILY_ANALYSIS_PROMPT;
     user_content :=
       py "Analyze these " ++ str_of_nat (length doc_texts)
          ++ py " related documents:" ++ nl ++ comparison;
     temperature := 2 # 10;
     max_tokens := 3000 |}.

(** Lines 271-275: the text of the first document whose filename equals
    the recommendation, or the empty string. *)
Fixpoint matching_text (doc_texts : list doc_text) (recommended : pyval)
    : pystr :=
  match doc_texts with
  | [] => []
  | dt :: rest =>
      if py_eq_str (dt_filename dt) recommended then dt_text dt
      else matching_text rest recommended
  end.

(** Lines 270-279. *)
Definition base_text_for (doc_texts : list doc_text) (recommended : pyval)
    : pystr :=
  let base_text := matching_text doc_texts recommended in
  if negb (truthy base_text) then
    match last doc_texts with
    | Some dt => dt_text dt
    | None => base_text
    end
  else base_text.

(** Lines 266-283, on the dictionary parsed from the response. *)
Definition post_process (doc_texts : list doc_text)
    (result : gmap pystr pyval) : gmap pystr pyval :=
  let result := <[py "document_count" := PInt (Z.of_nat (length doc_texts))]> result in
  let recommended := dict_get result (py "recommended_base") (PStr []) in
  let base_text := base_text_for doc_texts recommended in
  let result := <[py "base_document_text" := PStr base_text]> result in
  match result !! py "organizational_context" with
  | Some _ => result
  | None => <[py "organizational_context" := PStr []]> result
  end.

(** Lines 245-295: the call and the post-processing, inside the [try]
    that logs and re-raises. *)
Definition call_and_post_process (c : client) (req : request)
    (doc_texts context_texts : list doc_text) : M (gmap pystr pyval) :=
  try_except
    (emit (Completion c req) ;;
     result_text <- lift (chat_completions_create c req) ;;
     result <- lift (json_loads result_text) ;;
     match result with
     | PDict result =>
         let result := post_process doc_texts result in
         emit (Log Info
                 (FamilyAnalysisComplete
                    (dict_get result (py "family_type_display") (PStr (py "?")))
                    (length doc_texts) (length context_texts)
                    (dict_get result (py "confidence") (PStr (py "?"))))) ;;
         ret result
     | _ => raise (TypeError "object does not support item assignment")
     end)
    (fun e => emit (Log Error (FamilyAnalysisError e)) ;; raise e).

(** [analyze_document_family], lines 114-295. *)
Definition analyze_document_family (documents : list document)
    (user_context : pystr) (context_documents : option (list document))
    (args : azure_args) (environ : gmap pystr pystr)
    : M (gmap pystr pyval) :=
  let endpoint := endpoint_of args environ in
  let api_key := api_key_of args environ in
  let deployment := large_deployment_of args environ in
  if falsy endpoint || falsy api_key then raise not_configured
  else
    doc_texts <- collect extract_primary_doc documents ;;
    match doc_texts with
    | [] => raise no_extractable_text
    | [dt] =>
        emit (Log Info SingleDocumentStub) ;;
        ret (single_document_stub dt)
    | _ =>
        let doc_texts := list_sort created_key doc_texts in
        context_texts <-
          match context_documents with
          | Some (d :: ds) => collect extract_context_doc (d :: ds)
          | _ => ret []
          end ;;
        let comparison := comparison_text doc_texts user_context context_texts in
        match context_texts with
        | [] => ret ()
        | _ => emit (Log Info (IncludingContextDocs (length context_texts)))
        end ;;
        call_and_post_process (make_client args environ)
          (analysis_request deployment doc_texts comparison)
          doc_texts context_texts
    end.

End family_analyzer.

(** ** Operations on parsed values used by the extractors *)

(** [v[:n]]: lists and strings are sliced, any other value raises. *)
Definition slice_to (n : nat) (v : pyval) : exn + pyval :=
  match v with
  | PList l => inr (PList (take n l))
  | PStr s => inr (PStr (take n s))
  | _ => inl (TypeError "object is not subscriptable")
  end.

(** [len(v)] *)
Definition py_len (v : pyval) : exn + nat :=
  match v with
  | PList l => inr (length l)
  | PStr s => inr (length s)
  | PDict d => inr (size d)
  | _ => inl (TypeError "object has no len()")
  end.

(** [result.get]: only a dictionary has the method. *)
Definition as_dict (v : pyval) : exn + gmap pystr pyval :=
  match v with
  | PDict d => inr d
  | _ => inl (AttributeError "object has no attribute 'get'")
  end.

(** [k in d] together with [d[k]] for a dictionary with [str] keys:
    a [str] is looked up, a list or dictionary is unhashable, and any
    other value is hashable and equal to no key. *)
Definition dict_find {V} (d : gmap pystr V) (k : pyval) : exn + option V :=
  match k with
  | PStr s => inr (d !! s)
  | PList _ | PDict _ => inl (TypeError "unhashable type")
  | _ => inr None
  end.

(** A [for] loop that appends one item per element. *)
Fixpoint for_each {A B} (body : A -> M B) (l : list A) : M (list B) :=
  match l with
  | [] => ret []
  | x :: rest =>
      y <- body x ;;
      ys <- for_each body rest ;;
      ret (y :: ys)
  end.

(** ** intent_extractor.py *)

Section intent_extractor.
Context `{!Externals}.

(** [extract_search_intent], lines 212-288. *)
Definition extract_search_intent (user_prompt : pystr)
    (args : azure_args) (environ : gmap pystr pystr)
    : M (gmap pystr pyval) :=
  let endpoint := endpoint_of args environ in
  let api_key := api_key_of args environ in
  let deployment := deployment_of args environ in
  if falsy endpoint || falsy api_key then raise not_configured
  else
    let c := make_client args environ in
    let req := {| model := deployment;
                  system_content := SEARCH_INTENT_PROMPT;
                  user_content := user_prompt;
                  temperature := 1 # 10;
                  max_tokens := 500 |} in
    try_except
      (emit (Completion c req) ;;
       result_text <- lift (chat_completions_create c req) ;;
       result <- lift (json_loads result_text) ;;
       result <- lift (as_dict result) ;;
       search_terms <-
         lift (slice_to 3 (dict_get result (py "search_terms") (PList []))) ;;
       context_search_terms <-
         lift (slice_to 4
                 (dict_get result (py "context_search_terms") (PList []))) ;;
       emit (Log Info (SearchTermsCapped search_terms)) ;;
       emit (Log Info (ContextSearchTermsCapped context_search_terms)) ;;
       ret (list_to_map
              [(py "document_type",
                  dict_get result (py "document_type") (PStr (py "unknown")));
               (py "search_terms", search_terms);
               (py "context_search_terms", context_search_terms);
               (py "summary", dict_get result (py "summary") (PStr []));
               (py "confidence",
                  dict_get result (py "confidence") (PFloat (1 # 2)))]))
      (fun e => emit (Log Error (SearchIntentError e)) ;; raise e).

(** [extract_intent], lines 295-366. *)
Definition extract_intent (user_prompt : pystr)
    (args : azure_args) (environ : gmap pystr pystr)
    : M (gmap pystr pyval) :=
  let endpoint := endpoint_of args environ in
  let api_key := api_key_of args environ in
  let deployment := deployment_of args environ in
  if falsy endpoint || falsy api_key then raise not_configured
  else
    let c := make_client args environ in
    let req := {| model := deployment;
                  system_content := INTENT_EXTRACTION_PROMPT;
                  user_content := user_prompt;
                  temperature := 1 # 10;
                  max_tokens := 1000 |} in
    try_except
      (emit (Completion c req) ;;
       result_text <- lift (chat_completions_create c req) ;;
       result <- lift (json_loads result_text) ;;
       result <- lift (as_dict result) ;;
       ret (list_to_map
              [(py "intent",
                  dict_get result (py "intent") (PStr (py "unknown")));
               (py "document_type",
                  dict_get result (py "document_type") (PStr (py "unknown")));
               (py "search_terms",
                  dict_get result (py "search_terms") (PList []));
               (py "extracted_fields",
                  dict_get result (py "extracted_fields") (PDict ∅));
               (py "confidence",
                  dict_get result (py "confidence") (PFloat (1 # 2)));
               (py "summary", dict_get result (py "summary") (PStr []))]))
      (fun e => emit (Log Error (IntentError e)) ;; raise e).

(** The body of the loop of [merge_fields], lines 391-402. *)
Definition merge_field (extracted_fields : gmap pystr pyval)
    (field : gmap pystr pyval) : M (gmap pystr pyval) :=
  let field_copy := field in
  let field_name := dict_get field (py "field_name") (PStr []) in
  found <- lift (dict_find extracted_fields field_name) ;;
  match found with
  | Some value =>
      let field_copy := <[py "new_value" := value]> field_copy in
      ret (<[py "pre_filled" := PBool true]> field_copy)
  | None =>
      let field_copy :=
        <[py "new_value" := dict_get field (py "current_value") (PStr [])]>
          field_copy in
      ret (<[py "pre_filled" := PBool false]> field_copy)
  end.

(** [merge_fields], lines 373-404. *)
Definition merge_fields (original_fields : list (gmap pystr pyval))
    (extracted_fields : gmap pystr pyval) : M (list (gmap pystr pyval)) :=
  for_each (merge_field extracted_fields) original_fields.

End intent_extractor.

(** ** document_generator.py *)

Section document_generator.
Context `{!Externals}.

(** The user message of lines 438-444. *)
Definition synthesis_user_msg (family_analysis : gmap pystr pyval)
    (base_document_text user_changes organizational_context : pystr)
    : pystr :=
  let user_msg :=
    py "COMPARATIVE ANALYSIS:" ++ nl ++ json_dumps (PDict family_analysis)
       ++ nl ++ nl in
  let user_msg :=
    user_msg ++ py "MOST RECENT VERSION TEXT:" ++ nl
             ++ take 8000 base_document_text ++ nl ++ nl in
  let user_msg :=
    if truthy organizational_context then
      user_msg
        ++ py "ORGANIZATIONAL CONTEXT (recently discovered changes in the organization "
        ++ [8212%N] ++ py " incorporate where relevant):" ++ nl
        ++ organizational_context ++ nl ++ nl
    else user_msg in
  let user_msg :=
    if truthy user_changes then
      user_msg ++ py "USER REQUESTED CHANGES:" ++ nl ++ user_changes
               ++ nl ++ nl
    else user_msg in
  user_msg ++ py "Generate the complete new version.".

(** [generate_from_synthesis], lines 384-476. *)
Definition generate_from_synthesis (family_analysis : gmap pystr pyval)
    (base_document_text user_changes target_year organizational_context
       : pystr)
    (args : azure_args) (environ : gmap pystr pystr)
    : M (gmap pystr pyval) :=
  let endpoint := endpoint_of args environ in
  let api_key := api_key_of args environ in
  let deployment := large_deployment_of args environ in
  if falsy endpoint || falsy api_key then raise not_configured
  else
    let target_info :=
      if truthy target_year then target_year else py "next iteration" in
    let system_prompt := SYNTHESIS_GENERATION_PROMPT target_info in
    let user_msg :=
      synthesis_user_msg family_analysis base_document_text user_changes
        organizational_context in
    let c := make_client args environ in
    let req := {| model := deployment;
                  system_content := system_prompt;
                  user_content := user_msg;
                  temperature := 3 # 10;
                  max_tokens := 4000 |} in
    try_except
      (emit (Completion c req) ;;
       result_text <- lift (chat_completions_create c req) ;;
       result <- lift (json_loads result_text) ;;
       result <- lift (as_dict result) ;;
       changes <-
         lift (py_len (dict_get result (py "changes_applied") (PList []))) ;;
       flags <- lift (py_len (dict_get result (py "flags") (PList []))) ;;
       emit (Log Info (SynthesisComplete changes flags)) ;;
       ret result)
      (fun e => emit (Log Error (SynthesisError e)) ;; raise e).

End document_generator.


(** ** Vocabulary of the properties *)

Section vocabulary.
Context `{!Externals}.

(** The text one input document yields: its content base64-decoded and
    passed to [extract_text]; [None] when either step raises. *)
Definition extracted_text (doc : document) : option pystr :=
  match b64decode (content doc) with
  | inl _ => None
  | inr content_bytes =>
      match outcome (extract_text content_bytes (filename doc)) with
      | inl _ => None
      | inr text => Some text
      end
  end.

(** A document yields non-empty extracted text. *)
Definition yields_nonempty_text (doc : document) : bool :=
  match extracted_text doc with
  | Some (_ :: _) => true
  | _ => false
  end.

(** The entry a document contributes to [doc_texts], if any: the test of
    line 172 is [text.strip()], and the text kept is cut to [limit]
    characters. *)
Definition survivor (limit : nat) (doc : document) : option doc_text :=
  match extracted_text doc with
  | Some text =>
      if truthy (strip text) then
        Some {| dt_filename := filename doc;
                dt_text := take limit text;
                dt_metadata := default ∅ (metadata doc) |}
      else None
  | None => None
  end.

(** [doc_texts] after the loop of lines 168-183, in input order. *)
Definition surviving (documents : list document) : list doc_text :=
  omap (survivor 6000) documents.

(** [context_texts] after lines 222-235. *)
Definition context_texts_of (context_documents : option (list document))
    : list doc_text :=
  omap (survivor 4000) (default [] context_documents).

(** What the two extraction loops log. *)
Definition primary_log (documents : list document) : list event :=
  trace (collect extract_primary_doc documents).

Definition context_log (context_documents : option (list document))
    : list event :=
  match context_documents with
  | Some (d :: ds) => trace (collect extract_context_doc (d :: ds))
  | _ => []
  end.

Definition including_log (context_documents : option (list document))
    : list event :=
  match context_texts_of context_documents with
  | [] => []
  | c :: cs => [Log Info (IncludingContextDocs (length (c :: cs)))]
  end.

(** The [items] list of one category of the [analysis] of a result. *)
Definition element_items (result : gmap pystr pyval) (category : string)
    : option pyval :=
  match result !! py "analysis" with
  | Some (PDict analysis) =>
      match analysis !! py category with
      | Some (PDict elements) => elements !! py "items"
      | _ => None
      end
  | _ => None
  end.

(** Both credentials are present: the guard [if not endpoint or not
    api_key] does not fire. *)
Definition configured (args : azure_args) (environ : gmap pystr pystr)
    : Prop :=
  falsy (endpoint_of args environ) = false
  /\ falsy (api_key_of args environ) = false.

(** The order of two documents by creation string. *)
Definition created_le : relation doc_text := key_le created_key.

(** The request that the analysis of a family sends. *)
Definition family_request (documents : list document) (user_context : pystr)
    (context_documents : option (list document))
    (args : azure_args) (environ : gmap pystr pystr) : request :=
  let doc_texts := list_sort created_key (surviving documents) in
  analysis_request (large_deployment_of args environ) doc_texts
    (comparison_text doc_texts user_context
       (context_texts_of context_documents)).

(** The request of [extract_search_intent]. *)
Definition search_request (user_prompt : pystr)
    (args : azure_args) (environ : gmap pystr pystr) : request :=
  {| model := deployment_of args environ;
     system_content := SEARCH_INTENT_PROMPT;
     user_content := user_prompt;
     temperature := 1 # 10;
     max_tokens := 500 |}.

(** The name under which [merge_fields] looks a field up, when it is a
    string: the value of [field_name], or the empty string when the key
    is missing. *)
Definition hashable_name (field : gmap pystr pyval) : Prop :=
  match dict_get field (py "field_name") (PStr []) with
  | PList _ | PDict _ => False
  | _ => True
  end.

Definition override_for (overrides : gmap pystr pyval)
    (field : gmap pystr pyval) : option pyval :=
  match dict_get field (py "field_name") (PStr []) with
  | PStr name => overrides !! name
  | _ => None
  end.

End vocabulary.

(** ** The libraries on the inputs of the examples

    Stand-ins that agree with the real libraries on the inputs used in
    the examples below: ASCII file names and contents, the base64 texts
    listed, bytes that are not a word-processing archive, and two
    responses of the completion service. *)

Definition ascii_lower (c : char) : char :=
  if ((65 <=? c) && (c <=? 90))%N then (c + 32)%N else c.

Definition bytes_of (s : string) : bytes := String.list_byte_of_string s.

Definition quoted (s : string) : pystr := [34%N] ++ py s ++ [34%N].

(** [{"recommended_base": "c.txt"}] *)
Definition family_response : pystr :=
  py "{" ++ quoted "recommended_base" ++ py ": " ++ quoted "c.txt" ++ py "}".

(** [{"search_terms": ["memo", "letter", "notice", "report"]}] *)
Definition search_response : pystr :=
  py "{" ++ quoted "search_terms" ++ py ": [" ++ quoted "memo" ++ py ", "
     ++ quoted "letter" ++ py ", " ++ quoted "notice" ++ py ", "
     ++ quoted "report" ++ py "]}".

Definition example_b64decode (s : pystr) : exn + bytes :=
  if decide (s = py "IA==") then inr (bytes_of " ")
  else if decide (s = py "aGk=") then inr (bytes_of "hi")
  else if decide (s = py "YWxwaGE=") then inr (bytes_of "alpha")
  else if decide (s = py "YmV0YQ==") then inr (bytes_of "beta")
  else if decide (s = py "Z2FtbWE=") then inr (bytes_of "gamma")
  else inl (LibraryError "binascii.Error" "Incorrect padding").

Definition example_json_loads (s : pystr) : exn + pyval :=
  if decide (s = family_response) then
    inr (PDict {[ py "recommended_base" := PStr (py "c.txt") ]})
  else if decide (s = search_response) then
    inr (PDict {[ py "search_terms" :=
                    PList [PStr (py "memo"); PStr (py "letter");
                           PStr (py "notice"); PStr (py "report")] ]})
  else inl (LibraryError "JSONDecodeError" "Expecting value").

Definition example_externals : Externals := {|
  lower s := ascii_lower <$> s;
  decode_utf8 b :=
    if forallb (fun x => (Byte.to_N x <? 128)%N) b
    then Some (Byte.to_N <$> b) else None;
  b64decode := example_b64decode;
  Document _ := inl (LibraryError "BadZipFile" "File is not a zip file");
  chat_completions_create _ r :=
    if decide (system_content r = py "search intent")
    then inr search_response else inr family_response;
  json_loads := example_json_loads;
  json_dumps _ := py "{}";
  FAMILY_ANALYSIS_PROMPT := py "family analysis";
  SEARCH_INTENT_PROMPT := py "search intent";
  INTENT_EXTRACTION_PROMPT := py "intent extraction";
  SYNTHESIS_GENERATION_PROMPT target_info := py "synthesis for " ++ target_info
|}.

(** Keyword arguments that carry both credentials, and none. *)
Definition with_credentials : azure_args :=
  {| azure_endpoint := Some (py "https://example.openai.azure.com");
     azure_api_key := Some (py "key");
     azure_deployment := None;
     api_version := None |}.

Definition no_arguments : azure_args :=
  {| azure_endpoint := None; azure_api_key := None;
     azure_deployment := None; api_version := None |}.

Definition txt_document (name : string) (b64 : string) (created : string)
    : document :=
  {| filename := py name; content := py b64;
     metadata := Some {[ py "created" := py created ]} |}.

(** The documents of the examples: three plain-text versions of a memo,
    a note that holds a single space, and a file named as a
    word-processing document whose bytes are not one. *)
Definition memo_2023 : document :=
  txt_document "memo-2023.txt" "YWxwaGE=" "2023-08-15".
Definition memo_2024 : document :=
  txt_document "memo-2024.txt" "YmV0YQ==" "2024-08-15".
Definition memo_2025 : document :=
  txt_document "memo-2025.txt" "Z2FtbWE=" "2025-08-15".
Definition blank_note : document :=
  txt_document "note.txt" "IA==" "2024-08-01".
Definition corrupt_memo : document :=
  txt_document "memo.docx" "aGk=" "2024-08-01".

Definition entry_of (doc : document) (text : string) : doc_text :=
  {| dt_filename := filename doc; dt_text := py text;
     dt_metadata := default ∅ (metadata doc) |}.

(** Two fields and one override for [merge_fields]. *)
Definition example_fields : list (gmap pystr pyval) :=
  [ {[ py "field_name" := PStr (py "principal_name");
       py "current_value" := PStr (py "Dr. Smith") ]};
    {[ py "field_name" := PStr (py "school_year");
       py "current_value" := PStr (py "2024-2025") ]} ].

Definition example_overrides : gmap pystr pyval :=
  {[ py "principal_name" := PStr (py "Dr. Johnson") ]}.


(** * Properties *)

(** ** The monad *)

Lemma bind_pair {A B} (t : list event) (x : A) (k : A -> M B) :
  bind (t, inr x) k = (t ++ (k x).1, (k x).2).
Proof. unfold bind. by destruct (k x). Qed.

Lemma bind_ret {A B} (x : A) (k : A -> M B) : bind (ret x) k = k x.
Proof. unfold ret. rewrite bind_pair. by destruct (k x). Qed.

Lemma bind_raise {A B} (e : exn) (k : A -> M B) : bind (raise e) k = raise e.
Proof. done. Qed.

Lemma bind_emit {B} (ev : event) (k : unit -> M B) :
  bind (emit ev) k = (ev :: (k ()).1, (k ()).2).
Proof. unfold emit. by rewrite bind_pair. Qed.

Lemma bind_lift_inr {A B} (x : A) (k : A -> M B) : bind (lift (inr x)) k = k x.
Proof. apply bind_ret. Qed.

Lemma bind_lift_inl {A B} (e : exn) (k : A -> M B) :
  bind (lift (inl e)) k = raise e.
Proof. done. Qed.

(** ** Strings *)

Lemma suffix_same_last {A} (l1 l2 l : list A) (a b : A) :
  (l1 ++ [a]) `suffix_of` l -> (l2 ++ [b]) `suffix_of` l -> a = b.
Proof.
  intros [k1 ->] [k2 E]. apply (f_equal last) in E.
  rewrite !app_assoc, !last_snoc in E. congruence.
Qed.

Lemma endswith_true (s suffix : pystr) :
  endswith s suffix = true <-> suffix `suffix_of` s.
Proof. unfold endswith. apply bool_decide_eq_true. Qed.

Lemma endswith_false (s suffix : pystr) :
  endswith s suffix = false <-> ~ suffix `suffix_of` s.
Proof. unfold endswith. apply bool_decide_eq_false. Qed.

Lemma doc_is_not_docx (s : pystr) :
  py ".doc" `suffix_of` s -> ~ py ".docx" `suffix_of` s.
Proof.
  intros Hdoc Hdocx.
  by pose proof (suffix_same_last (py ".do") (py ".doc") s 99%N 120%N Hdoc Hdocx).
Qed.

Lemma doc_is_not_txt (s : pystr) :
  py ".doc" `suffix_of` s -> ~ py ".txt" `suffix_of` s.
Proof.
  intros Hdoc Htxt.
  by pose proof (suffix_same_last (py ".do") (py ".tx") s 99%N 116%N Hdoc Htxt).
Qed.

(** ** document_analyzer.py *)

Section document_analyzer_facts.
Context `{!Externals}.

Lemma extract_text_from_txt_eq (file_bytes : bytes) :
  extract_text_from_txt file_bytes
  = ret (match decode_utf8 file_bytes with
         | Some text => text
         | None => decode_latin1 file_bytes
         end).
Proof. done. Qed.

(** The word-processing branch returns a text whatever the bytes are. *)
Lemma extract_text_from_docx_returns (file_bytes : bytes) :
  exists text, outcome (extract_text_from_docx file_bytes) = inr text.
Proof.
  unfold extract_text_from_docx. destruct (Document file_bytes) as [e|doc].
  - by exists [].
  - by eexists.
Qed.

Lemma extract_text_from_docx_corrupt (file_bytes : bytes) (e : exn) :
  Document file_bytes = inl e ->
  extract_text_from_docx file_bytes = ([Log Error (DocxExtractError e)], inr []).
Proof. intros E. unfold extract_text_from_docx. by rewrite E. Qed.

Lemma extract_text_docx (file_bytes : bytes) (filename : pystr) :
  py ".docx" `suffix_of` lower filename ->
  extract_text file_bytes filename = extract_text_from_docx file_bytes.
Proof.
  intros Hx. unfold extract_text.
  by rewrite (proj2 (endswith_true _ _) Hx).
Qed.

Lemma extract_text_legacy (file_bytes : bytes) (filename : pystr) :
  py ".doc" `suffix_of` lower filename ->
  extract_text file_bytes filename = raise legacy_doc_error.
Proof.
  intros Hdoc. unfold extract_text.
  rewrite (proj2 (endswith_false _ _) (doc_is_not_docx _ Hdoc)).
  rewrite (proj2 (endswith_false _ _) (doc_is_not_txt _ Hdoc)).
  by rewrite (proj2 (endswith_true _ _) Hdoc).
Qed.

Lemma extract_text_plain (file_bytes : bytes) (filename : pystr) :
  ~ py ".docx" `suffix_of` lower filename ->
  ~ py ".doc" `suffix_of` lower filename ->
  extract_text file_bytes filename = extract_text_from_txt file_bytes.
Proof.
  intros Hx Hdoc. unfold extract_text.
  rewrite (proj2 (endswith_false _ _) Hx), (proj2 (endswith_false _ _) Hdoc).
  by destruct (endswith _ _).
Qed.

(** C5.  [extract_text] dispatches on the suffix of the lower-cased file
    name.  It raises exactly when that name ends with [.doc] (which
    excludes [.docx]), and the exception is then the unsupported-format
    [ValueError]; when the name ends with neither [.docx] nor [.doc]
    (so for [.txt] and for every unknown suffix) it returns the UTF-8
    decoding of the bytes, or their Latin-1 decoding when UTF-8 decoding
    fails, and logs nothing. *)
Theorem extract_text_dispatch (file_bytes : bytes) (filename : pystr) :
  ((exists e, outcome (extract_text file_bytes filename) = inl e)
   <-> py ".doc" `suffix_of` lower filename)
  /\ (py ".doc" `suffix_of` lower filename ->
      ~ py ".docx" `suffix_of` lower filename
      /\ extract_text file_bytes filename = raise legacy_doc_error)
  /\ (~ py ".docx" `suffix_of` lower filename ->
      ~ py ".doc" `suffix_of` lower filename ->
      extract_text file_bytes filename
      = ret (match decode_utf8 file_bytes with
             | Some text => text
             | None => decode_latin1 file_bytes
             end)).
Proof.
  split; [split|split].
  - intros [e He].
    destruct (decide (py ".docx" `suffix_of` lower filename)) as [Hx|Hx].
    { rewrite (extract_text_docx _ _ Hx) in He.
      destruct (extract_text_from_docx_returns file_bytes) as [t Ht].
      congruence. }
    destruct (decide (py ".doc" `suffix_of` lower filename)) as [Hd|Hd]; [done|].
    by rewrite (extract_text_plain _ _ Hx Hd), extract_text_from_txt_eq in He.
  - intros Hd. exists legacy_doc_error. by rewrite (extract_text_legacy _ _ Hd).
  - intros Hd. split; [by apply doc_is_not_docx | by apply extract_text_legacy].
  - intros Hx Hd. by rewrite (extract_text_plain _ _ Hx Hd).
Qed.

End document_analyzer_facts.

(** ** The order on strings and the stable sort *)

Lemma str_ltb_irrefl (a : pystr) : str_ltb a a = false.
Proof.
  induction a as [|x a IH]; [done|]. simpl.
  rewrite N.ltb_irrefl, N.eqb_refl. by rewrite IH.
Qed.

Lemma str_ltb_trans (a b c : pystr) :
  str_ltb a b = true -> str_ltb b c = true -> str_ltb a c = true.
Proof.
  revert b c. induction a as [|x a IH]; intros [|y b] [|z c]; simpl; try done.
  rewrite !orb_true_iff, !andb_true_iff, !N.ltb_lt, !N.eqb_eq.
  intros [Hxy|[-> Hab]] [Hyz|[-> Hbc]]; [left; lia | by left | by left |].
  right. split; [done|]. by apply (IH b).
Qed.

Lemma str_ltb_total (a b : pystr) :
  str_ltb a b = false -> str_ltb b a = false -> a = b.
Proof.
  revert b. induction a as [|x a IH]; intros [|y b]; simpl; try done.
  rewrite !orb_false_iff, !andb_false_iff, !N.ltb_ge, !N.eqb_neq.
  intros [Hyx Hab] [Hxy Hba].
  assert (x = y) as -> by lia.
  f_equal. apply IH.
  - by destruct Hab.
  - by destruct Hba.
Qed.

Lemma str_ltb_asym (a b : pystr) : str_ltb a b = true -> str_ltb b a = false.
Proof.
  intros Hab. destruct (str_ltb b a) eqn:Hba; [|done].
  pose proof (str_ltb_trans _ _ _ Hab Hba) as H.
  by rewrite str_ltb_irrefl in H.
Qed.


Section sorting_facts.
Context {A : Type} (key : A -> pystr).

Lemma key_le_trans (a b c : A) :
  key_le key a b -> key_le key b c -> key_le key a c.
Proof.
  unfold key_le. intros Hab Hbc.
  destruct (str_ltb (key c) (key a)) eqn:Hca; [|done].
  destruct (str_ltb (key a) (key b)) eqn:Hab'.
  - by rewrite (str_ltb_trans _ _ _ Hca Hab') in Hbc.
  - rewrite (str_ltb_total _ _ Hab' Hab) in Hca. congruence.
Qed.

Lemma insert_sorted_perm (x : A) (l : list A) :
  insert_sorted key x l ≡ₚ x :: l.
Proof.
  induction l as [|y l IH]; simpl; [done|].
  destruct (str_ltb (key y) (key x)); [|done].
  rewrite IH. apply Permutation_swap.
Qed.

Lemma list_sort_perm (l : list A) : list_sort key l ≡ₚ l.
Proof.
  induction l as [|x l IH]; simpl; [done|].
  rewrite insert_sorted_perm. by f_equiv.
Qed.

Lemma insert_sorted_sorted (x : A) (l : list A) :
  StronglySorted (key_le key) l -> StronglySorted (key_le key) (insert_sorted key x l).
Proof.
  induction 1 as [|y l Hl IH Hy]; simpl.
  { repeat constructor. }
  destruct (str_ltb (key y) (key x)) eqn:Hyx.
  - constructor; [done|].
    rewrite insert_sorted_perm. constructor; [|done].
    unfold key_le. by apply str_ltb_asym.
  - constructor; [by constructor|].
    constructor; [done|].
    eapply Forall_impl; [exact Hy|].
    intros z Hz. by apply (key_le_trans x y z).
Qed.

Lemma list_sort_sorted (l : list A) : StronglySorted (key_le key) (list_sort key l).
Proof.
  induction l as [|x l IH]; simpl; [constructor|].
  by apply insert_sorted_sorted.
Qed.


(** The last element of the sorted list has a greatest key. *)
Lemma list_sort_last (l : list A) (x : A) :
  last (list_sort key l) = Some x -> Forall (fun y => key_le key y x) l.
Proof.
  intros Hlast. rewrite <- (list_sort_perm l).
  pose proof (list_sort_sorted l) as Hs.
  apply last_Some in Hlast as [l' E]. rewrite E in Hs |- *.
  apply Forall_app. split.
  - apply Forall_forall. intros y Hy.
    apply (StronglySorted_app_1_elem_of _ _ _ y x Hs Hy). by left.
  - constructor; [|done]. unfold key_le. apply str_ltb_irrefl.
Qed.

End sorting_facts.

(** ** family_analyzer.py: the extraction loops *)

Section extraction_facts.
Context `{!Externals}.

Lemma extract_text_no_completion (file_bytes : bytes) (filename : pystr) :
  no_completion (trace (extract_text file_bytes filename)).
Proof.
  unfold no_completion, trace, extract_text.
  destruct (endswith (lower filename) (py ".docx")).
  { unfold extract_text_from_docx.
    destruct (Document file_bytes); simpl; repeat constructor. }
  repeat destruct (endswith _ _); simpl; constructor.
Qed.

Lemma extract_primary_doc_outcome (doc : document) :
  outcome (extract_primary_doc doc) = inr (survivor 6000 doc).
Proof.
  unfold extract_primary_doc, survivor, extracted_text, outcome.
  rewrite bind_emit.
  destruct (b64decode (content doc)) as [e|content_bytes]; [done|].
  rewrite bind_lift_inr.
  destruct (extract_text content_bytes (filename doc)) as [t [e|text]];
    [done|].
  rewrite bind_pair. simpl. by destruct (truthy (strip text)).
Qed.

Lemma extract_context_doc_outcome (doc : document) :
  outcome (extract_context_doc doc) = inr (survivor 4000 doc).
Proof.
  unfold extract_context_doc, survivor, extracted_text, outcome.
  rewrite bind_emit.
  destruct (b64decode (content doc)) as [e|content_bytes]; [done|].
  rewrite bind_lift_inr.
  destruct (extract_text content_bytes (filename doc)) as [t [e|text]];
    [done|].
  rewrite bind_pair. simpl. by destruct (truthy (strip text)).
Qed.

Lemma extract_primary_doc_no_completion (doc : document) :
  no_completion (trace (extract_primary_doc doc)).
Proof.
  unfold extract_primary_doc, trace. rewrite bind_emit.
  destruct (b64decode (content doc)) as [e|content_bytes];
    [repeat constructor|].
  rewrite bind_lift_inr.
  pose proof (extract_text_no_completion content_bytes (filename doc)) as Hq.
  destruct (extract_text content_bytes (filename doc)) as [t [e|text]];
    simpl in *.
  - constructor; [done|]. apply Forall_app. split; [done|]. by constructor.
  - destruct (truthy (strip text)); simpl; constructor; try done;
      apply Forall_app; split; try done; by repeat constructor.
Qed.

Lemma extract_context_doc_no_completion (doc : document) :
  no_completion (trace (extract_context_doc doc)).
Proof.
  unfold extract_context_doc, trace. rewrite bind_emit.
  destruct (b64decode (content doc)) as [e|content_bytes];
    [repeat constructor|].
  rewrite bind_lift_inr.
  pose proof (extract_text_no_completion content_bytes (filename doc)) as Hq.
  destruct (extract_text content_bytes (filename doc)) as [t [e|text]];
    simpl in *.
  - constructor; [done|]. apply Forall_app. split; [done|]. by constructor.
  - destruct (truthy (strip text)); simpl; constructor; try done;
      apply Forall_app; split; try done; by repeat constructor.
Qed.

Lemma collect_outcome {A B} (body : A -> M (option B)) (f : A -> option B)
    (l : list A) :
  (forall x, outcome (body x) = inr (f x)) ->
  collect body l = (trace (collect body l), inr (omap f l)).
Proof.
  intros Hbody. induction l as [|x l IH]; [done|].
  simpl. specialize (Hbody x).
  destruct (body x) as [t [e|item]]; simpl in Hbody; [done|].
  injection Hbody as ->. rewrite bind_pair, IH. simpl.
  rewrite app_nil_r. by destruct (f x).
Qed.

Lemma collect_no_completion {A B} (body : A -> M (option B)) (l : list A) :
  (forall x, no_completion (trace (body x))) ->
  no_completion (trace (collect body l)).
Proof.
  intros Hbody. induction l as [|x l IH]; [constructor|].
  simpl. specialize (Hbody x).
  destruct (body x) as [t [e|item]]; simpl in *; [done|].
  destruct (collect body l) as [t' [e|items]]; simpl in *.
  - by apply Forall_app.
  - rewrite app_nil_r. by apply Forall_app.
Qed.

Lemma collect_primary (documents : list document) :
  collect extract_primary_doc documents
  = (primary_log documents, inr (surviving documents)).
Proof. apply collect_outcome, extract_primary_doc_outcome. Qed.

Lemma collect_context (context_documents : option (list document)) :
  match context_documents with
  | Some (d :: ds) => collect extract_context_doc (d :: ds)
  | _ => ret []
  end
  = (context_log context_documents, inr (context_texts_of context_documents)).
Proof.
  destruct context_documents as [[|d ds]|]; try done.
  apply (collect_outcome _ (survivor 4000)), extract_context_doc_outcome.
Qed.

Lemma primary_log_no_completion (documents : list document) :
  no_completion (primary_log documents).
Proof. apply collect_no_completion, extract_primary_doc_no_completion. Qed.

Lemma context_log_no_completion (context_documents : option (list document)) :
  no_completion (context_log context_documents).
Proof.
  destruct context_documents as [[|d ds]|]; try constructor.
  apply (collect_no_completion extract_context_doc (d :: ds)),
    extract_context_doc_no_completion.
Qed.

(** A document that yields no text, or only white space, contributes
    nothing. *)
Lemma survivor_nonempty (limit : nat) (doc : document) :
  yields_nonempty_text doc = false -> survivor limit doc = None.
Proof.
  unfold yields_nonempty_text, survivor.
  by destruct (extracted_text doc) as [[|c text]|].
Qed.

End extraction_facts.

(** ** family_analyzer.py: the analysis *)

Section family_analyzer_facts.
Context `{!Externals}.
Implicit Types (documents : list document) (user_context : pystr).
Implicit Types (context_documents : option (list document)).
Implicit Types (args : azure_args) (environ : gmap pystr pystr).

Lemma guard_passes args environ :
  configured args environ ->
  falsy (endpoint_of args environ) || falsy (api_key_of args environ) = false.
Proof. by intros [-> ->]. Qed.

Lemma guard_fires args environ :
  ~ configured args environ ->
  falsy (endpoint_of args environ) || falsy (api_key_of args environ) = true.
Proof.
  unfold configured. intros Hn.
  destruct (falsy (endpoint_of args environ)); [done|].
  destruct (falsy (api_key_of args environ)); [done|]. by destruct Hn.
Qed.

Lemma analyze_none documents user_context context_documents args environ :
  configured args environ ->
  surviving documents = [] ->
  analyze_document_family documents user_context context_documents args environ
  = (primary_log documents, inl no_extractable_text).
Proof.
  intros Hc Hs. unfold analyze_document_family.
  rewrite (guard_passes _ _ Hc), collect_primary, bind_pair, Hs. simpl.
  by rewrite app_nil_r.
Qed.

Lemma analyze_single documents user_context context_documents args environ dt :
  configured args environ ->
  surviving documents = [dt] ->
  analyze_document_family documents user_context context_documents args environ
  = (primary_log documents ++ [Log Info SingleDocumentStub],
     inr (single_document_stub dt)).
Proof.
  intros Hc Hs. unfold analyze_document_family.
  by rewrite (guard_passes _ _ Hc), collect_primary, bind_pair, Hs.
Qed.

Lemma analyze_many documents user_context context_documents args environ :
  configured args environ ->
  2 <= length (surviving documents) ->
  analyze_document_family documents user_context context_documents args environ
  = (primary_log documents ++ context_log context_documents
       ++ including_log context_documents
       ++ trace (call_and_post_process (make_client args environ)
                   (family_request documents user_context context_documents
                      args environ)
                   (list_sort created_key (surviving documents))
                   (context_texts_of context_documents)),
     outcome (call_and_post_process (make_client args environ)
                (family_request documents user_context context_documents
                   args environ)
                (list_sort created_key (surviving documents))
                (context_texts_of context_documents))).
Proof.
  intros Hc Hlen. unfold analyze_document_family, family_request.
  rewrite (guard_passes _ _ Hc), collect_primary, bind_pair.
  destruct (surviving documents) as [|d1 [|d2 rest]] eqn:E;
    [simpl in Hlen; lia..|].
  cbv beta iota. rewrite collect_context, bind_pair. cbv beta.
  unfold including_log, trace, outcome.
  destruct (context_texts_of context_documents) as [|c cs].
  - by rewrite bind_ret.
  - by rewrite bind_emit.
Qed.

Lemma call_success (c : client) (req : request)
    (doc_texts context_texts : list doc_text) (text : pystr)
    (r : gmap pystr pyval) :
  chat_completions_create c req = inr text ->
  json_loads text = inr (PDict r) ->
  outcome (call_and_post_process c req doc_texts context_texts)
  = inr (post_process doc_texts r).
Proof.
  intros Hchat Hjson. unfold call_and_post_process.
  by rewrite bind_emit, Hchat, bind_lift_inr, Hjson, bind_lift_inr, bind_emit.
Qed.

Lemma call_returns (c : client) (req : request)
    (doc_texts context_texts : list doc_text) (result : gmap pystr pyval) :
  outcome (call_and_post_process c req doc_texts context_texts) = inr result ->
  exists text r,
    chat_completions_create c req = inr text
    /\ json_loads text = inr (PDict r)
    /\ result = post_process doc_texts r.
Proof.
  unfold call_and_post_process. rewrite bind_emit.
  destruct (chat_completions_create c req) as [e|text] eqn:Hchat; [done|].
  rewrite bind_lift_inr.
  destruct (json_loads text) as [e|v] eqn:Hjson; [done|].
  rewrite bind_lift_inr.
  destruct v as [| | | | | |r]; try done.
  rewrite bind_emit. simpl. intros [= <-]. by exists text, r.
Qed.


Lemma post_process_document_count (doc_texts : list doc_text)
    (r : gmap pystr pyval) :
  post_process doc_texts r !! py "document_count"
  = Some (PInt (Z.of_nat (length doc_texts))).
Proof.
  unfold post_process.
  case_match; rewrite ?lookup_insert_ne by done;
    by rewrite lookup_insert_eq.
Qed.

Lemma post_process_base_document_text (doc_texts : list doc_text)
    (r : gmap pystr pyval) :
  post_process doc_texts r !! py "base_document_text"
  = Some (PStr (base_text_for doc_texts
                  (dict_get r (py "recommended_base") (PStr [])))).
Proof.
  unfold post_process.
  assert (dict_get (<[py "document_count" :=
                       PInt (Z.of_nat (length doc_texts))]> r)
            (py "recommended_base") (PStr [])
          = dict_get r (py "recommended_base") (PStr [])) as ->.
  { unfold dict_get. by rewrite lookup_insert_ne. }
  case_match; rewrite ?lookup_insert_ne by done;
    by rewrite lookup_insert_eq.
Qed.

Lemma post_process_recommended_base (doc_texts : list doc_text)
    (r : gmap pystr pyval) :
  post_process doc_texts r !! py "recommended_base"
  = r !! py "recommended_base".
Proof.
  unfold post_process. case_match; by rewrite !lookup_insert_ne.
Qed.

Lemma py_eq_str_false (s : pystr) (v : pyval) :
  py_eq_str s v = false <-> v <> PStr s.
Proof.
  destruct v; simpl; try (split; [discriminate|done]).
  rewrite bool_decide_eq_false. split; intros H1 H2; apply H1; congruence.
Qed.

Lemma matching_text_none (doc_texts : list doc_text) (recommended : pyval) :
  (forall dt, dt ∈ doc_texts -> recommended <> PStr (dt_filename dt)) ->
  matching_text doc_texts recommended = [].
Proof.
  induction doc_texts as [|dt rest IH]; intros Hno; [done|]. simpl.
  rewrite (proj2 (py_eq_str_false _ _))
    by (apply Hno; by left).
  apply IH. intros dt' Hdt'. apply Hno. by right.
Qed.

Lemma base_text_for_fallback (doc_texts : list doc_text) (recommended : pyval)
    (newest : doc_text) :
  (forall dt, dt ∈ doc_texts -> recommended <> PStr (dt_filename dt)) ->
  last doc_texts = Some newest ->
  base_text_for doc_texts recommended = dt_text newest.
Proof.
  intros Hno Hlast. unfold base_text_for.
  by rewrite (matching_text_none _ _ Hno), Hlast.
Qed.

End family_analyzer_facts.

(** ** family_analyzer.py: properties of the analysis *)

Section family_analyzer_properties.
Context `{!Externals}.
Implicit Types (documents : list document) (user_context : pystr).
Implicit Types (context_documents : option (list document)).
Implicit Types (args : azure_args) (environ : gmap pystr pystr).

(** C7.  With the credentials configured, when no input document yields
    non-empty extracted text (the empty list included), the analysis
    raises the [ValueError] that reports that no text could be extracted
    from any document, and its trace holds no call to the completion
    service. *)
Theorem no_extractable_text_fails
    documents user_context context_documents args environ :
  configured args environ ->
  Forall (fun doc => yields_nonempty_text doc = false) documents ->
  outcome (analyze_document_family documents user_context context_documents
             args environ)
  = inl no_extractable_text
  /\ no_completion
       (trace (analyze_document_family documents user_context
                 context_documents args environ)).
Proof.
  intros Hc Hnone.
  assert (surviving documents = []) as Hs.
  { unfold surviving. induction Hnone as [|doc l Hdoc _ IH]; [done|].
    simpl. by rewrite (survivor_nonempty _ _ Hdoc). }
  rewrite (analyze_none _ _ _ _ _ Hc Hs). split; [done|].
  apply primary_log_no_completion.
Qed.

(** C2, as the code has it.  With the credentials configured, when
    exactly one input document yields text that is non-empty after
    [strip()] (so [doc_texts] is the single entry [dt]), the analysis
    returns the stub built from [dt] without calling the completion
    service: [single_document_fallback] is [True], [recommended_base] is
    the file name of that document, [base_document_text] its extracted
    text cut to 6000 characters, [confidence] is 0.5, and the [items] of
    the stable, variable and emerging elements are empty lists. *)
Theorem single_document_fallback
    documents user_context context_documents args environ dt :
  configured args environ ->
  surviving documents = [dt] ->
  outcome (analyze_document_family documents user_context context_documents
             args environ)
  = inr (single_document_stub dt)
  /\ no_completion
       (trace (analyze_document_family documents user_context
                 context_documents args environ))
  /\ single_document_stub dt !! py "single_document_fallback"
     = Some (PBool true)
  /\ single_document_stub dt !! py "recommended_base"
     = Some (PStr (dt_filename dt))
  /\ single_document_stub dt !! py "base_document_text"
     = Some (PStr (dt_text dt))
  /\ single_document_stub dt !! py "confidence" = Some (PFloat (1 # 2))
  /\ element_items (single_document_stub dt) "stable_elements"
     = Some (PList [])
  /\ element_items (single_document_stub dt) "variable_elements"
     = Some (PList [])
  /\ element_items (single_document_stub dt) "emerging_elements"
     = Some (PList [])
  /\ exists doc text,
       doc ∈ documents
       /\ extracted_text doc = Some text
       /\ strip text <> []
       /\ dt_filename dt = filename doc
       /\ dt_text dt = take 6000 text.
Proof.
  intros Hc Hs. rewrite (analyze_single _ _ _ _ _ dt Hc Hs).
  split; [done|]. split.
  { apply Forall_app. split; [apply primary_log_no_completion|].
    by repeat constructor. }
  do 7 (split; [reflexivity|]).
  assert (dt ∈ surviving documents) as Hin by (rewrite Hs; by left).
  apply list_elem_of_omap in Hin as (doc & Hdoc & Hsurv).
  unfold survivor in Hsurv.
  destruct (extracted_text doc) as [text|] eqn:Htext; [|done].
  destruct (strip text) as [|c s] eqn:Hstrip; [done|].
  simpl in Hsurv. injection Hsurv as <-.
  exists doc, text. by rewrite Hstrip.
Qed.

(** C3, as the code has it.  With the credentials configured and two or
    more documents whose extracted text is non-empty after [strip()],
    every result the analysis returns has [document_count] equal to the
    number of those documents, whatever the response holds; and the
    analysis returns a result whenever the completion service answers
    with a JSON object. *)
Theorem document_count_is_survivor_count
    documents user_context context_documents args environ :
  configured args environ ->
  2 <= length (surviving documents) ->
  (forall result,
     outcome (analyze_document_family documents user_context
                context_documents args environ) = inr result ->
     result !! py "document_count"
     = Some (PInt (Z.of_nat (length (surviving documents)))))
  /\ (forall text r,
        chat_completions_create (make_client args environ)
          (family_request documents user_context context_documents
             args environ) = inr text ->
        json_loads text = inr (PDict r) ->
        exists result,
          outcome (analyze_document_family documents user_context
                     context_documents args environ) = inr result).
Proof.
  intros Hc Hlen. rewrite (analyze_many _ _ _ _ _ Hc Hlen). simpl. split.
  - intros result Hres.
    apply call_returns in Hres as (text & r & _ & _ & ->).
    rewrite post_process_document_count.
    by rewrite (Permutation_length (list_sort_perm created_key _)).
  - intros text r Hchat Hjson. eexists. by eapply call_success.
Qed.

(** C1, as the code has it.  With the credentials configured and two or
    more surviving documents, when the completion service answers with a
    JSON object whose [recommended_base] is not the file name of any
    surviving document, the analysis completes; [base_document_text] is
    the text of the last document in creation order, whose creation
    string no other surviving document exceeds; and [recommended_base]
    is left as the response has it. *)
Theorem unresolvable_base_falls_back
    documents user_context context_documents args environ text r :
  configured args environ ->
  2 <= length (surviving documents) ->
  chat_completions_create (make_client args environ)
    (family_request documents user_context context_documents args environ)
  = inr text ->
  json_loads text = inr (PDict r) ->
  (forall dt, dt ∈ surviving documents ->
     dict_get r (py "recommended_base") (PStr []) <> PStr (dt_filename dt)) ->
  exists result newest,
    outcome (analyze_document_family documents user_context
               context_documents args environ) = inr result
    /\ last (list_sort created_key (surviving documents)) = Some newest
    /\ newest ∈ surviving documents
    /\ Forall (fun dt => created_le dt newest) (surviving documents)
    /\ result !! py "base_document_text" = Some (PStr (dt_text newest))
    /\ result !! py "recommended_base" = r !! py "recommended_base".
Proof.
  intros Hc Hlen Hchat Hjson Hno.
  rewrite (analyze_many _ _ _ _ _ Hc Hlen). simpl.
  destruct (last (list_sort created_key (surviving documents)))
    as [newest|] eqn:Hlast.
  2:{ apply last_None in Hlast.
      apply (f_equal length) in Hlast.
      rewrite (Permutation_length (list_sort_perm created_key _)) in Hlast.
      simpl in Hlast. lia. }
  exists (post_process (list_sort created_key (surviving documents)) r), newest.
  split; [by eapply call_success|]. split; [done|]. split.
  { rewrite <- (list_sort_perm created_key). by eapply last_Some_elem_of. }
  split; [by apply (list_sort_last created_key)|]. split.
  - rewrite post_process_base_document_text.
    f_equal. f_equal. apply base_text_for_fallback; [|done].
    intros dt Hdt. apply Hno. by rewrite <- (list_sort_perm created_key).
  - apply post_process_recommended_base.
Qed.

End family_analyzer_properties.

Section chronological_order.
Context `{!Externals}.
Implicit Types (documents : list document) (user_context : pystr).
Implicit Types (context_documents : option (list document)).
Implicit Types (args : azure_args) (environ : gmap pystr pystr).




End chronological_order.

Section corrupt_documents.
Context `{!Externals}.

Lemma analysis_depends_on_survivors (documents documents' : list document)
    (user_context : pystr) (context_documents : option (list document))
    (args : azure_args) (environ : gmap pystr pystr) :
  surviving documents = surviving documents' ->
  outcome (analyze_document_family documents user_context context_documents
             args environ)
  = outcome (analyze_document_family documents' user_context
               context_documents args environ).
Proof.
  intros Hs. unfold analyze_document_family.
  destruct (falsy _ || falsy _); [done|].
  rewrite !collect_primary, !bind_pair. simpl. by rewrite Hs.
Qed.

(** C10.  For a file name that ends with [.docx] once lower-cased,
    [extract_text] returns a text whatever the bytes are; when the
    parser rejects the bytes it logs the error and returns the empty
    string.  In the batch such a document only leaves a warning: it adds
    no entry to [doc_texts], and the analysis has the outcome it has
    without the document. *)
Theorem corrupt_docx_is_dropped (file_bytes : bytes) (name : pystr) :
  py ".docx" `suffix_of` lower name ->
  (exists text, outcome (extract_text file_bytes name) = inr text)
  /\ (forall e,
        Document file_bytes = inl e ->
        extract_text file_bytes name
        = ([Log Error (DocxExtractError e)], inr [])
        /\ forall doc,
             filename doc = name ->
             b64decode (content doc) = inr file_bytes ->
             extract_primary_doc doc
             = ([Extraction name; Log Error (DocxExtractError e);
                 Log Warning (EmptyTextExtracted name)], inr None)
             /\ forall before after user_context context_documents
                       args environ,
                  outcome (analyze_document_family (before ++ doc :: after)
                             user_context context_documents args environ)
                  = outcome (analyze_document_family (before ++ after)
                               user_context context_documents args environ)).
Proof.
  intros Hx. rewrite (extract_text_docx _ _ Hx).
  split; [apply extract_text_from_docx_returns|].
  intros e He.
  split; [by apply extract_text_from_docx_corrupt|].
  intros doc Hname Hb64.
  assert (extract_primary_doc doc
          = ([Extraction name; Log Error (DocxExtractError e);
              Log Warning (EmptyTextExtracted name)], inr None)) as Hone.
  { unfold extract_primary_doc.
    rewrite bind_emit, Hb64, bind_lift_inr, Hname, (extract_text_docx _ _ Hx).
    by rewrite (extract_text_from_docx_corrupt _ _ He). }
  split; [done|].
  intros before after user_context context_documents args environ.
  apply analysis_depends_on_survivors.
  unfold surviving. rewrite !omap_app. f_equal. simpl.
  pose proof (extract_primary_doc_outcome doc) as Hout.
  rewrite Hone in Hout. simpl in Hout. injection Hout as Hout.
  by rewrite <- Hout.
Qed.

End corrupt_documents.

(** ** The credentials guard *)

Section credentials.
Context `{!Externals}.

(** C8.  When the endpoint or the API key is absent (neither the keyword
    argument nor the environment variable gives a non-empty string),
    [analyze_document_family], [generate_from_synthesis],
    [extract_search_intent] and [extract_intent] raise the
    not-configured [ValueError] with an empty trace: no document has been
    decoded or extracted and no call to the completion service has been
    made. *)
Theorem missing_credentials_fail_fast (args : azure_args)
    (environ : gmap pystr pystr) :
  falsy (endpoint_of args environ) = true
  \/ falsy (api_key_of args environ) = true ->
  (forall documents user_context context_documents,
     analyze_document_family documents user_context context_documents
       args environ
     = ([], inl not_configured))
  /\ (forall family_analysis base_document_text user_changes target_year
             organizational_context,
        generate_from_synthesis family_analysis base_document_text
          user_changes target_year organizational_context args environ
        = ([], inl not_configured))
  /\ (forall user_prompt,
        extract_search_intent user_prompt args environ
        = ([], inl not_configured))
  /\ (forall user_prompt,
        extract_intent user_prompt args environ = ([], inl not_configured)).
Proof.
  intros Habsent.
  assert (falsy (endpoint_of args environ)
          || falsy (api_key_of args environ) = true) as Hguard.
  { destruct Habsent as [-> | ->]; [done | apply orb_true_r]. }
  unfold analyze_document_family, generate_from_synthesis,
    extract_search_intent, extract_intent.
  rewrite Hguard. by repeat split.
Qed.

(** The guard reads the keyword argument first and the environment
    variable second. *)
Lemma endpoint_absent (args : azure_args) (environ : gmap pystr pystr) :
  falsy (endpoint_of args environ) = true
  <-> falsy (azure_endpoint args) = true
      /\ falsy (environ !! py "AZURE_OPENAI_ENDPOINT") = true.
Proof.
  unfold endpoint_of, py_or.
  destruct (azure_endpoint args) as [[|c s]|]; simpl; intuition congruence.
Qed.

Lemma api_key_absent (args : azure_args) (environ : gmap pystr pystr) :
  falsy (api_key_of args environ) = true
  <-> falsy (azure_api_key args) = true
      /\ falsy (environ !! py "AZURE_OPENAI_KEY") = true.
Proof.
  unfold api_key_of, py_or.
  destruct (azure_api_key args) as [[|c s]|]; simpl; intuition congruence.
Qed.

End credentials.

(** ** intent_extractor.py *)

Section intent_extractor_properties.
Context `{!Externals}.

Lemma search_intent_configured (user_prompt : pystr) (args : azure_args)
    (environ : gmap pystr pystr) :
  configured args environ ->
  extract_search_intent user_prompt args environ
  = try_except
      (emit (Completion (make_client args environ)
               (search_request user_prompt args environ)) ;;
       result_text <-
         lift (chat_completions_create (make_client args environ)
                 (search_request user_prompt args environ)) ;;
       result <- lift (json_loads result_text) ;;
       result <- lift (as_dict result) ;;
       search_terms <-
         lift (slice_to 3 (dict_get result (py "search_terms") (PList []))) ;;
       context_search_terms <-
         lift (slice_to 4
                 (dict_get result (py "context_search_terms") (PList []))) ;;
       emit (Log Info (SearchTermsCapped search_terms)) ;;
       emit (Log Info (ContextSearchTermsCapped context_search_terms)) ;;
       ret (list_to_map
              [(py "document_type",
                  dict_get result (py "document_type") (PStr (py "unknown")));
               (py "search_terms", search_terms);
               (py "context_search_terms", context_search_terms);
               (py "summary", dict_get result (py "summary") (PStr []));
               (py "confidence",
                  dict_get result (py "confidence") (PFloat (1 # 2)))]))
      (fun e => emit (Log Error (SearchIntentError e)) ;; raise e).
Proof.
  intros Hc. unfold extract_search_intent. by rewrite (guard_passes _ _ Hc).
Qed.

(** C9.  With the credentials configured, every dictionary that
    [extract_search_intent] returns holds the keys [document_type],
    [search_terms], [context_search_terms], [summary] and [confidence];
    and when the response parses to an object whose [search_terms] and
    [context_search_terms] are arrays (an absent key counting as the
    empty array), the call returns with [search_terms] the first three
    and [context_search_terms] the first four of their elements, in
    order, or all of them when there are fewer. *)
Theorem search_terms_are_capped (user_prompt : pystr) (args : azure_args)
    (environ : gmap pystr pystr) :
  configured args environ ->
  (forall result,
     outcome (extract_search_intent user_prompt args environ) = inr result ->
     is_Some (result !! py "document_type")
     /\ is_Some (result !! py "search_terms")
     /\ is_Some (result !! py "context_search_terms")
     /\ is_Some (result !! py "summary")
     /\ is_Some (result !! py "confidence"))
  /\ (forall text r terms context_terms,
        chat_completions_create (make_client args environ)
          (search_request user_prompt args environ) = inr text ->
        json_loads text = inr (PDict r) ->
        dict_get r (py "search_terms") (PList []) = PList terms ->
        dict_get r (py "context_search_terms") (PList [])
        = PList context_terms ->
        exists result,
          outcome (extract_search_intent user_prompt args environ)
          = inr result
          /\ result !! py "search_terms" = Some (PList (take 3 terms))
          /\ result !! py "context_search_terms"
             = Some (PList (take 4 context_terms))
          /\ length (take 3 terms) <= 3
          /\ length (take 4 context_terms) <= 4).
Proof.
  intros Hc. rewrite (search_intent_configured _ _ _ Hc). split.
  - intros result. rewrite bind_emit.
    destruct (chat_completions_create _ _) as [e|text]; [done|].
    rewrite bind_lift_inr.
    destruct (json_loads text) as [e|v]; [done|].
    rewrite bind_lift_inr.
    destruct v as [| | | | | |r]; try done.
    simpl as_dict. rewrite bind_lift_inr.
    destruct (slice_to 3 _) as [e|search_terms]; [done|].
    rewrite bind_lift_inr.
    destruct (slice_to 4 _) as [e|context_search_terms]; [done|].
    rewrite bind_lift_inr, !bind_emit. simpl. intros [= <-].
    repeat split; by eexists.
  - intros text r terms context_terms Hchat Hjson Hterms Hcontext.
    rewrite bind_emit, Hchat, bind_lift_inr, Hjson, bind_lift_inr.
    simpl as_dict. rewrite bind_lift_inr, Hterms, Hcontext.
    simpl slice_to. rewrite !bind_lift_inr, !bind_emit. simpl.
    eexists. split; [done|].
    split; [reflexivity|]. split; [reflexivity|].
    rewrite !length_take. lia.
Qed.

Lemma merge_field_returns (overrides field : gmap pystr pyval) :
  hashable_name field ->
  merge_field overrides field
  = ret (<[py "pre_filled" :=
             PBool (bool_decide (is_Some (override_for overrides field)))]>
           (<[py "new_value" :=
                default (dict_get field (py "current_value") (PStr []))
                  (override_for overrides field)]> field)).
Proof.
  unfold hashable_name, merge_field, override_for.
  destruct (dict_get field (py "field_name") (PStr [])) as [| | | |name| |];
    try done.
  intros _. simpl dict_find. rewrite bind_lift_inr.
  by destruct (overrides !! name).
Qed.

Lemma merge_fields_returns (overrides : gmap pystr pyval)
    (original_fields : list (gmap pystr pyval)) :
  Forall hashable_name original_fields ->
  merge_fields original_fields overrides
  = ret ((fun field =>
            <[py "pre_filled" :=
                PBool (bool_decide (is_Some (override_for overrides field)))]>
              (<[py "new_value" :=
                   default (dict_get field (py "current_value") (PStr []))
                     (override_for overrides field)]> field))
           <$> original_fields).
Proof.
  unfold merge_fields. induction 1 as [|field l Hfield _ IH]; [done|].
  simpl. by rewrite (merge_field_returns _ _ Hfield), bind_ret, IH, bind_ret.
Qed.

(** C4.  For every list of fields whose [field_name], when present, is a
    hashable value (a string, as the field records have it), and every
    map of overrides, [merge_fields] returns, without raising or logging,
    a list of the same length in which the entry at each position is the
    field at that position with two keys set: [new_value] is the
    override when the name of the field (the empty string when the key
    is missing) is a key of the overrides and the [current_value] of the
    field (the empty string when missing) otherwise, and [pre_filled]
    tells which of the two happened; every other key is as in the
    input. *)
Theorem merge_fields_spec (original_fields : list (gmap pystr pyval))
    (overrides : gmap pystr pyval) :
  Forall hashable_name original_fields ->
  exists merged,
    merge_fields original_fields overrides = ([], inr merged)
    /\ length merged = length original_fields
    /\ forall i field,
         original_fields !! i = Some field ->
         exists out,
           merged !! i = Some out
           /\ (forall name,
                 dict_get field (py "field_name") (PStr []) = PStr name ->
                 (forall value,
                    overrides !! name = Some value ->
                    out !! py "new_value" = Some value
                    /\ out !! py "pre_filled" = Some (PBool true))
                 /\ (overrides !! name = None ->
                     out !! py "new_value"
                     = Some (dict_get field (py "current_value") (PStr []))
                     /\ out !! py "pre_filled" = Some (PBool false)))
           /\ ((forall name,
                  dict_get field (py "field_name") (PStr []) <> PStr name) ->
               out !! py "new_value"
               = Some (dict_get field (py "current_value") (PStr []))
               /\ out !! py "pre_filled" = Some (PBool false))
           /\ (forall k,
                 k <> py "new_value" -> k <> py "pre_filled" ->
                 out !! k = field !! k).
Proof.
  intros Hfields. eexists.
  split; [by apply merge_fields_returns|].
  split; [by rewrite length_fmap|].
  intros i field Hi. eexists.
  split; [by rewrite list_lookup_fmap, Hi|].
  split; [|split].
  - intros name Hname. unfold override_for. rewrite Hname. split.
    + intros value Hvalue. rewrite Hvalue. simpl.
      rewrite lookup_insert_ne by done.
      by rewrite !lookup_insert_eq.
    + intros Hnone. rewrite Hnone. simpl.
      rewrite lookup_insert_ne by done.
      by rewrite !lookup_insert_eq.
  - intros Hnot. unfold override_for.
    destruct (dict_get field (py "field_name") (PStr [])) as [| | | |name| |];
      simpl; try (rewrite lookup_insert_ne by done;
                  by rewrite !lookup_insert_eq).
    by destruct (Hnot name).
  - intros k Hnew Hpre. by rewrite !lookup_insert_ne.
Qed.

End intent_extractor_properties.

(** * Examples: the properties at concrete inputs *)

Lemma with_credentials_configured : configured with_credentials ∅.
Proof. split; reflexivity. Qed.


Lemma surviving_memos_2025_2024 :
  @surviving example_externals [memo_2025; memo_2024]
  = [entry_of memo_2025 "gamma"; entry_of memo_2024 "beta"].
Proof. vm_compute. reflexivity. Qed.

(** C5 at three file names: a legacy [.DOC] name raises, a [.txt] name
    and a name without a known suffix are decoded. *)
Example extract_text_examples :
  @extract_text example_externals (bytes_of "hi") (py "Letter.DOC")
  = raise legacy_doc_error
  /\ @extract_text example_externals (bytes_of "hi") (py "notes.txt")
     = ret (py "hi")
  /\ @extract_text example_externals (bytes_of "hi") (py "README")
     = ret (py "hi").
Proof. repeat split; vm_compute; reflexivity. Qed.

Lemma no_extractable_text_fails_witness :
  configured with_credentials ∅
  /\ Forall (fun doc => @yields_nonempty_text example_externals doc = false)
       [corrupt_memo]
  /\ outcome (@analyze_document_family example_externals [corrupt_memo] []
                None with_credentials ∅)
     = inl no_extractable_text.
Proof.
  assert (Forall
            (fun doc => @yields_nonempty_text example_externals doc = false)
            [corrupt_memo]) as Hnone.
  { constructor; [vm_compute; reflexivity | constructor]. }
  split; [exact with_credentials_configured|]. split; [exact Hnone|].
  exact (proj1 (@no_extractable_text_fails example_externals [corrupt_memo]
                  [] None with_credentials ∅
                  with_credentials_configured Hnone)).
Defined.

Lemma single_document_fallback_witness :
  configured with_credentials ∅
  /\ @surviving example_externals [corrupt_memo; memo_2024; blank_note]
     = [entry_of memo_2024 "beta"]
  /\ outcome (@analyze_document_family example_externals
                [corrupt_memo; memo_2024; blank_note] [] None
                with_credentials ∅)
     = inr (@single_document_stub (entry_of memo_2024 "beta")).
Proof.
  assert (@surviving example_externals [corrupt_memo; memo_2024; blank_note]
          = [entry_of memo_2024 "beta"]) as Hs
    by (vm_compute; reflexivity).
  split; [exact with_credentials_configured|]. split; [exact Hs|].
  exact (proj1 (@single_document_fallback example_externals
                  [corrupt_memo; memo_2024; blank_note] [] None
                  with_credentials ∅ (entry_of memo_2024 "beta")
                  with_credentials_configured Hs)).
Defined.

(** C2 as stated fails: the note that holds one space is the only
    document and yields non-empty text, yet the analysis raises instead
    of returning the stub. *)
Lemma blank_single_document_is_rejected :
  ~ (forall (E : Externals) documents user_context context_documents
            args environ,
       configured args environ ->
       length (filter (fun doc => yields_nonempty_text doc = true) documents)
       = 1 ->
       exists result,
         outcome (analyze_document_family documents user_context
                    context_documents args environ) = inr result
         /\ result !! py "single_document_fallback" = Some (PBool true)).
Proof.
  intros Hclaim.
  destruct (Hclaim example_externals [blank_note] [] None
              with_credentials ∅) as (result & Hout & _).
  - exact with_credentials_configured.
  - vm_compute. reflexivity.
  - vm_compute in Hout. discriminate Hout.
Qed.

Lemma document_count_is_survivor_count_witness :
  configured with_credentials ∅
  /\ 2 <= length (@surviving example_externals [memo_2025; memo_2024])
  /\ exists result,
       outcome (@analyze_document_family example_externals
                  [memo_2025; memo_2024] [] None with_credentials ∅)
       = inr result
       /\ result !! py "document_count" = Some (PInt 2).
Proof.
  assert (2 <= length (@surviving example_externals [memo_2025; memo_2024]))
    as Hlen by (rewrite surviving_memos_2025_2024; simpl; lia).
  split; [exact with_credentials_configured|]. split; [exact Hlen|].
  destruct (@document_count_is_survivor_count example_externals
              [memo_2025; memo_2024] [] None with_credentials ∅
              with_credentials_configured Hlen) as [Hcount Hreturns].
  destruct (Hreturns family_response
              {[ py "recommended_base" := PStr (py "c.txt") ]})
    as [result Hout]; [reflexivity | vm_compute; reflexivity |].
  exists result. split; [exact Hout|].
  rewrite (Hcount result Hout), surviving_memos_2025_2024. reflexivity.
Defined.

(** C3 as stated fails: of three documents that all yield non-empty
    text one holds only a space; it is not counted, and
    [document_count] is 2. *)
Lemma blank_document_is_not_counted :
  ~ (forall (E : Externals) documents user_context context_documents
            args environ result,
       configured args environ ->
       2 <= length (surviving documents) ->
       outcome (analyze_document_family documents user_context
                  context_documents args environ) = inr result ->
       result !! py "document_count"
       = Some (PInt (Z.of_nat
                       (length (filter
                                  (fun doc => yields_nonempty_text doc = true)
                                  documents))))).
Proof.
  intros Hclaim.
  pose proof (Hclaim example_externals [memo_2023; blank_note; memo_2024]
                [] None with_credentials ∅) as H.
  destruct (outcome (@analyze_document_family example_externals
                       [memo_2023; blank_note; memo_2024] [] None
                       with_credentials ∅)) as [e|result] eqn:Hout.
  { vm_compute in Hout. discriminate Hout. }
  specialize (H result with_credentials_configured).
  vm_compute in Hout. injection Hout as <-.
  assert (2 <= length (@surviving example_externals
                         [memo_2023; blank_note; memo_2024])) as Hlen
    by (vm_compute; lia).
  specialize (H Hlen eq_refl). vm_compute in H. discriminate H.
Qed.

Lemma unresolvable_base_falls_back_witness :
  configured with_credentials ∅
  /\ exists result,
       outcome (@analyze_document_family example_externals
                  [memo_2025; memo_2024] [] None with_credentials ∅)
       = inr result
       /\ result !! py "base_document_text" = Some (PStr (py "gamma"))
       /\ result !! py "recommended_base" = Some (PStr (py "c.txt")).
Proof.
  split; [exact with_credentials_configured|].
  assert (2 <= length (@surviving example_externals [memo_2025; memo_2024]))
    as Hlen by (rewrite surviving_memos_2025_2024; simpl; lia).
  destruct (@unresolvable_base_falls_back example_externals
              [memo_2025; memo_2024] [] None with_credentials ∅
              family_response
              {[ py "recommended_base" := PStr (py "c.txt") ]}
              with_credentials_configured Hlen)
    as (result & newest & Hout & Hlast & _ & _ & Hbase & Hrec).
  - reflexivity.
  - vm_compute. reflexivity.
  - intros dt Hdt. rewrite surviving_memos_2025_2024 in Hdt.
    apply elem_of_cons in Hdt as [->|Hdt]; [by vm_compute|].
    apply list_elem_of_singleton in Hdt as ->. by vm_compute.
  - exists result. split; [exact Hout|].
    vm_compute in Hlast. injection Hlast as <-.
    split; [exact Hbase | exact Hrec].
Defined.

(** C1 as stated fails: the response names [c.txt], which is no input
    file, and the result still names it. *)
Lemma unresolved_base_name_is_kept :
  ~ (forall (E : Externals) documents user_context context_documents
            args environ result,
       configured args environ ->
       2 <= length (surviving documents) ->
       outcome (analyze_document_family documents user_context
                  context_documents args environ) = inr result ->
       exists doc,
         doc ∈ documents
         /\ result !! py "recommended_base" = Some (PStr (filename doc))).
Proof.
  intros Hclaim.
  pose proof (Hclaim example_externals [memo_2025; memo_2024] [] None
                with_credentials ∅) as H.
  destruct (outcome (@analyze_document_family example_externals
                       [memo_2025; memo_2024] [] None with_credentials ∅))
    as [e|result] eqn:Hout.
  { vm_compute in Hout. discriminate Hout. }
  specialize (H result with_credentials_configured).
  vm_compute in Hout. injection Hout as <-.
  assert (2 <= length (@surviving example_externals [memo_2025; memo_2024]))
    as Hlen by (vm_compute; lia).
  destruct (H Hlen eq_refl) as (doc & Hdoc & Hname).
  apply elem_of_cons in Hdoc as [->|Hdoc].
  { vm_compute in Hname. discriminate Hname. }
  apply list_elem_of_singleton in Hdoc as ->.
  vm_compute in Hname. discriminate Hname.
Qed.


Lemma corrupt_docx_is_dropped_witness :
  py ".docx" `suffix_of` @lower example_externals (py "memo.docx")
  /\ @extract_primary_doc example_externals corrupt_memo
     = ([Extraction (py "memo.docx");
         Log Error
           (DocxExtractError
              (LibraryError "BadZipFile" "File is not a zip file"));
         Log Warning (EmptyTextExtracted (py "memo.docx"))], inr None)
  /\ outcome (@analyze_document_family example_externals
                [memo_2023; corrupt_memo; memo_2024] [] None
                with_credentials ∅)
     = outcome (@analyze_document_family example_externals
                  [memo_2023; memo_2024] [] None with_credentials ∅).
Proof.
  assert (py ".docx" `suffix_of` @lower example_externals (py "memo.docx"))
    as Hx by (exists (py "memo"); vm_compute; reflexivity).
  split; [exact Hx|].
  destruct (@corrupt_docx_is_dropped example_externals (bytes_of "hi")
              (py "memo.docx") Hx) as [_ Hcorrupt].
  destruct (Hcorrupt (LibraryError "BadZipFile" "File is not a zip file")
              eq_refl) as [_ Hbatch].
  destruct (Hbatch corrupt_memo eq_refl eq_refl) as [Hone Hsame].
  split; [exact Hone|].
  exact (Hsame [memo_2023] [memo_2024] [] None with_credentials ∅).
Defined.

Lemma missing_credentials_fail_fast_witness :
  (falsy (endpoint_of no_arguments ∅) = true
   \/ falsy (api_key_of no_arguments ∅) = true)
  /\ @analyze_document_family example_externals [memo_2023; memo_2024] []
       None no_arguments ∅
     = ([], inl not_configured)
  /\ @extract_search_intent example_externals (py "find my memos")
       no_arguments ∅
     = ([], inl not_configured).
Proof.
  assert (falsy (endpoint_of no_arguments ∅) = true
          \/ falsy (api_key_of no_arguments ∅) = true) as Habsent
    by (left; reflexivity).
  split; [exact Habsent|].
  destruct (@missing_credentials_fail_fast example_externals no_arguments ∅
              Habsent) as (Hanalyze & _ & Hsearch & _).
  split; [apply Hanalyze | apply Hsearch].
Defined.

Lemma search_terms_are_capped_witness :
  configured with_credentials ∅
  /\ exists result,
       outcome (@extract_search_intent example_externals
                  (py "find my memos") with_credentials ∅)
       = inr result
       /\ result !! py "search_terms"
          = Some (PList [PStr (py "memo"); PStr (py "letter");
                         PStr (py "notice")])
       /\ result !! py "context_search_terms" = Some (PList []).
Proof.
  split; [exact with_credentials_configured|].
  destruct (@search_terms_are_capped example_externals (py "find my memos")
              with_credentials ∅ with_credentials_configured)
    as [_ Hcapped].
  destruct (Hcapped search_response
              {[ py "search_terms" :=
                   PList [PStr (py "memo"); PStr (py "letter");
                          PStr (py "notice"); PStr (py "report")] ]}
              [PStr (py "memo"); PStr (py "letter");
               PStr (py "notice"); PStr (py "report")] [])
    as (result & Hout & Hterms & Hcontext & _).
  - reflexivity.
  - vm_compute. reflexivity.
  - vm_compute. reflexivity.
  - vm_compute. reflexivity.
  - exists result. split; [exact Hout|].
    split; [exact Hterms | exact Hcontext].
Defined.

Lemma merge_fields_spec_witness :
  Forall hashable_name example_fields
  /\ exists merged,
       @merge_fields example_fields example_overrides = ([], inr merged)
       /\ length merged = 2
       /\ (merged !! 0) ≫= (.!! py "new_value")
          = Some (PStr (py "Dr. Johnson"))
       /\ (merged !! 1) ≫= (.!! py "new_value")
          = Some (PStr (py "2024-2025")).
Proof.
  assert (Forall hashable_name example_fields) as Hfields.
  { repeat constructor; vm_compute; exact I. }
  split; [exact Hfields|].
  destruct (merge_fields_spec example_fields example_overrides Hfields)
    as (merged & Hmerged & Hlen & Hentries).
  exists merged. split; [exact Hmerged|]. split; [exact Hlen|].
  destruct (Hentries 0 _ eq_refl) as (out0 & Hout0 & Hnamed0 & _).
  destruct (Hentries 1 _ eq_refl) as (out1 & Hout1 & Hnamed1 & _).
  rewrite Hout0, Hout1. simpl. split.
  - destruct (Hnamed0 (py "principal_name")) as [Hset _];
      [vm_compute; reflexivity|].
    destruct (Hset (PStr (py "Dr. Johnson"))) as [Hnew _];
      [vm_compute; reflexivity|].
    exact Hnew.
  - destruct (Hnamed1 (py "school_year")) as [_ Hkeep];
      [vm_compute; reflexivity|].
    destruct Hkeep as [Hnew _]; [vm_compute; reflexivity|].
    rewrite Hnew. vm_compute. reflexivity.
Defined.
